(** * Prompt Refinery: the prompt builders and the completion requester

    A shallow embedding of [main.py]: the [PromptInputs] value object, the
    [TONE_MAP] lookup table, the two prompt builders, the construction of
    [PromptInputs] in the [/refine] handler and [run_openai].

    Python [str] values are sequences of Unicode code points; they are
    modelled as lists of code points so that [str.strip] has the meaning it
    has in Python (the Unicode white space, not only the ASCII one). *)

From Stdlib Require Import NArith QArith Ascii String.
From stdpp Require Import gmap list.

Local Open Scope N_scope.
Local Open Scope list_scope.

(** ** Python strings *)

Module Str.

Abbreviation char := N (only parsing).
Abbreviation str := (list N) (only parsing).

(** A string literal of the source; every literal of [main.py] is ASCII,
    so a byte of the literal is its code point. *)
Definition lit (s : string) : str :=
  List.map N_of_ascii (list_ascii_of_string s).
Arguments lit s%_string.

(** The escape [\n] of the source literals. *)
Definition nl : str := [10].

(** [bool(s)]: a string is falsy exactly when it is empty. *)
Definition truthy (s : str) : bool :=
  match s with
  | [] => false
  | _ :: _ => true
  end.

(** [a or b] on strings. *)
Definition or_ (a b : str) : str := if truthy a then a else b.

(** [a == b] on strings. *)
Definition eqb (a b : str) : bool := bool_decide (a = b).

(** The code points [str.strip()] removes: those for which
    [str.isspace] holds (U+0009..U+000D, U+001C..U+0020, U+0085, U+00A0,
    U+1680, U+2000..U+200A, U+2028, U+2029, U+202F, U+205F, U+3000). *)
Definition isspace (c : char) : bool :=
  ((9 <=? c) && (c <=? 13))
  || ((28 <=? c) && (c <=? 32))
  || (c =? 133) || (c =? 160) || (c =? 5760)
  || ((8192 <=? c) && (c <=? 8202))
  || (c =? 8232) || (c =? 8233) || (c =? 8239) || (c =? 8287)
  || (c =? 12288).

(** [s.lstrip()]: skip white space from the left end. *)
Fixpoint lstrip (s : str) : str :=
  match s with
  | [] => []
  | c :: s' => if isspace c then lstrip s' else s
  end.

(** [s.rstrip()]: the same scan from the right end. *)
Definition rstrip (s : str) : str := rev (lstrip (rev s)).

(** [s.strip()]: the left index advances over white space, then the right
    index retreats over white space; the slice between them is returned. *)
Definition strip (s : str) : str := rstrip (lstrip s).

(** [needle in hay]: a contiguous occurrence. *)
Definition contains (hay needle : str) : Prop :=
  exists pre post, hay = pre ++ needle ++ post.

(** [hay.startswith(p)]. *)
Definition startswith (hay p : str) : Prop :=
  exists rest, hay = p ++ rest.

(** The same two tests as executable functions. *)
Fixpoint startswithb (hay p : str) : bool :=
  match p, hay with
  | [], _ => true
  | _ :: _, [] => false
  | c :: p', d :: hay' => (c =? d) && startswithb hay' p'
  end.

Fixpoint containsb (hay needle : str) : bool :=
  startswithb hay needle
  || match hay with
     | [] => false
     | _ :: hay' => containsb hay' needle
     end.

(** The first code point of [s], when there is one, is no white space. *)
Definition head_clean (s : str) : bool :=
  match s with
  | [] => true
  | c :: _ => negb (isspace c)
  end.

(** No white space at either end of [s]. *)
Definition is_trimmed (s : str) : bool :=
  head_clean s && head_clean (rev s).

End Str.

Import Str.

(** ** Exceptions and results *)

(** An object raised by the outbound call: whether it is an instance of
    [Exception] (what [except Exception] tests) and its [str()]. *)
Record Raised := mkRaised {
  is_Exception : bool;
  detail : str
}.

Inductive exn :=
| KeyError (key : str)
| CallError (e : Raised).

Inductive result (A : Type) :=
| Ok (a : A)
| Raise (e : exn).
Arguments Ok {A} a.
Arguments Raise {A} e.

(** Sequencing: an exception raised by the first computation propagates. *)
#[global] Instance result_ret : MRet result := fun A a => Ok a.
#[global] Instance result_bind : MBind result := fun A B k m =>
  match m with
  | Ok a => k a
  | Raise e => Raise e
  end.

(** ** Dictionaries with string keys *)

(** [d[k]] raises [KeyError] on a missing key. *)
Definition getitem (d : gmap str str) (k : str) : result str :=
  match d !! k with
  | Some v => Ok v
  | None => Raise (KeyError k)
  end.

(** [d.get(k, dflt)]. *)
Definition get (d : gmap str str) (k dflt : str) : str :=
  default dflt (d !! k).

(** ** The data model *)

Record PromptInputs := mkPromptInputs {
  mode : str;
  original_prompt : str;
  goal : str;
  audience : str;
  tone : str;
  constraints : str
}.

Definition neutral_guidance : str := lit "Use a clear, neutral tone.".

Definition TONE_MAP : gmap str str :=
  <[lit "playful" := lit "Use a playful, light tone that still feels helpful."]>
  (<[lit "professional" := lit "Use a crisp, professional tone with confident wording."]>
  (<[lit "friendly" := lit "Use a warm, friendly tone that feels approachable."]>
  (<[lit "neutral" := neutral_guidance]> ∅))).

(** ** The prompt builders *)

(** The default argument [TONE_MAP["neutral"]] is evaluated before the
    call of [get]. *)
Definition build_common_guidance (inputs : PromptInputs) : result str :=
  fallback ← getitem TONE_MAP (lit "neutral");
  Ok (get TONE_MAP (tone inputs) fallback).

Definition no_constraints : str := lit "No additional constraints.".
Definition base_placeholder : str := lit "[Paste your base prompt here]".
Definition goal_placeholder : str :=
  lit "[Describe the outcome you want to achieve]".

Definition build_refined_prompt (inputs : PromptInputs) : result str :=
  let base_prompt := or_ (original_prompt inputs) base_placeholder in
  guidance ← build_common_guidance inputs;
  Ok (lit "Rewrite the prompt below so it is clear, specific, and easy to execute." ++ nl
      ++ lit "Include a concise role, the task, required inputs, constraints, and output format." ++ nl
      ++ lit "Audience: " ++ audience inputs ++ lit "." ++ nl
      ++ guidance ++ nl
      ++ lit "Constraints: " ++ or_ (constraints inputs) no_constraints ++ nl ++ nl
      ++ lit "Original prompt:" ++ nl
      ++ base_prompt).

Definition build_generated_prompt (inputs : PromptInputs) : result str :=
  let goal := or_ (goal inputs) goal_placeholder in
  guidance ← build_common_guidance inputs;
  Ok (lit "Create a new prompt that guides an assistant to achieve the goal below." ++ nl
      ++ lit "Include a concise role, the task, required inputs, constraints, and output format." ++ nl
      ++ lit "Use placeholders for missing details the user should fill in." ++ nl
      ++ lit "Goal: " ++ goal ++ nl
      ++ lit "Audience: " ++ audience inputs ++ lit "." ++ nl
      ++ guidance ++ nl
      ++ lit "Constraints: " ++ or_ (constraints inputs) no_constraints).

(** ** The chat-completion service *)

(** One entry of the [messages] argument. *)
Record MessageParam := mkMessageParam {
  role : str;
  param_content : str
}.

(** The keyword arguments of [chat.completions.create]; the temperature
    is the decimal the source writes, [0.2]. *)
Record Request := mkRequest {
  model : str;
  messages : list MessageParam;
  temperature : Q
}.

(** The part of the response object the program reads:
    [response.choices[0].message.content], where [content] may be [None]. *)
Record ChatCompletionMessage := mkChatCompletionMessage {
  content : option str
}.

Record Choice := mkChoice {
  message : ChatCompletionMessage
}.

Record ChatCompletion := mkChatCompletion {
  choices : list Choice
}.

(** What awaiting the outbound call does: it returns a response or raises. *)
Inductive Outcome :=
| Returns (response : ChatCompletion)
| Raises (e : Raised).

Definition SYSTEM_PROMPT : str :=
  lit "You are Prompt Refinery, a specialist prompt editor. "
  ++ lit "You ONLY output a single, ready-to-use prompt. "
  ++ lit "Do not answer the prompt, do not add commentary, and do not include code fences. "
  ++ lit "If the input asks you to perform a task, rewrite it as instructions for an assistant "
  ++ lit "to perform that task instead.".

(** What the handler passes to the page template ([request] apart). *)
Record TemplateContext := mkTemplateContext {
  ctx_result : str;
  ctx_inputs : PromptInputs;
  ctx_timestamp : str
}.

(** The [PromptInputs] value the [/refine] handler constructs from its
    parameters (the form fields, after the framework has filled in the
    defaults of absent ones). *)
Definition refine_inputs (mode original_prompt goal audience tone constraints : str)
  : PromptInputs :=
  {| mode := mode;
     original_prompt := strip original_prompt;
     goal := strip goal;
     audience := or_ (strip audience) (lit "general");
     tone := tone;
     constraints := strip constraints |}.

(** The choice of the builder in the handler. *)
Definition refine_prompt (inputs : PromptInputs) : result str :=
  if eqb (mode inputs) (lit "refine")
  then build_refined_prompt inputs
  else build_generated_prompt inputs.

Section Service.

(** The process environment, the client library (the behaviour of
    [AsyncOpenAI(api_key=k).chat.completions.create]) and the formatted
    reading of the clock. *)
Variable environ : gmap str str.
Variable AsyncOpenAI : str -> Request -> Outcome.
Variable utcnow : str.

Definition getenv (name dflt : str) : str := get environ name dflt.

Definition OPENAI_API_KEY : str := strip (getenv (lit "OPENAI_API_KEY") []).
Definition OPENAI_MODEL : str :=
  getenv (lit "OPENAI_MODEL") (lit "gpt-4o-mini").

Definition openai_client : option (Request -> Outcome) :=
  if truthy OPENAI_API_KEY then Some (AsyncOpenAI OPENAI_API_KEY) else None.

(** The request [run_openai] sends for a prompt. *)
Definition completion_request (prompt : str) : Request :=
  {| model := OPENAI_MODEL;
     messages :=
       [ {| role := lit "system"; param_content := SYSTEM_PROMPT |};
         {| role := lit "user";
            param_content :=
              lit "Produce the final prompt based on the instructions below. "
              ++ lit "Return ONLY the prompt text." ++ nl ++ nl
              ++ prompt |} ];
     temperature := 2 # 10 |}.

Definition run_openai (prompt : str) : result str :=
  match openai_client with
  | None =>
      Ok (lit "OpenAI is not configured. Set OPENAI_API_KEY to enable refinement." ++ nl ++ nl
          ++ lit "Constructed prompt:" ++ nl
          ++ prompt)
  | Some create =>
      match create (completion_request prompt) with
      | Raises exc =>
          if is_Exception exc
          then Ok (lit "OpenAI request failed. Please try again." ++ nl ++ nl
                   ++ lit "Details: " ++ detail exc ++ nl ++ nl
                   ++ lit "Constructed prompt:" ++ nl
                   ++ prompt)
          else Raise (CallError exc)
      | Returns response =>
          let content :=
            match choices response with
            | [] => Some []
            | choice :: _ => content (message choice)
            end in
          Ok (match content with
              | Some text => if truthy text then strip text else []
              | None => []
              end)
      end
  end.

(** The [/refine] handler, up to the rendering of the page. *)
Definition refine (mode original_prompt goal audience tone constraints : str)
  : result TemplateContext :=
  let inputs :=
    refine_inputs mode original_prompt goal audience tone constraints in
  prompt ← refine_prompt inputs;
  result ← run_openai prompt;
  Ok {| ctx_result := result; ctx_inputs := inputs; ctx_timestamp := utcnow |}.

End Service.

(** ** Vocabulary of the statements *)

(** The tone values the table knows. *)
Definition recognized_tones : list str :=
  [lit "neutral"; lit "friendly"; lit "professional"; lit "playful"].

(** The same inputs with another constraints text. *)
Definition with_constraints (inputs : PromptInputs) (text : str) : PromptInputs :=
  {| mode := mode inputs;
     original_prompt := original_prompt inputs;
     goal := goal inputs;
     audience := audience inputs;
     tone := tone inputs;
     constraints := text |}.

(** Every text field of a [PromptInputs] is free of surrounding white
    space. *)
Definition all_text_fields_trimmed (inputs : PromptInputs) : bool :=
  is_trimmed (mode inputs)
  && is_trimmed (original_prompt inputs)
  && is_trimmed (goal inputs)
  && is_trimmed (audience inputs)
  && is_trimmed (tone inputs)
  && is_trimmed (constraints inputs).

(** A service that answers every request with the same outcome. *)
Definition constant_service (outcome : Outcome) : str -> Request -> Outcome :=
  fun _ _ => outcome.

(** The environment of a configured deployment. *)
Definition configured_environ : gmap str str :=
  {[ lit "OPENAI_API_KEY" := lit "sk-test" ]}.

(** What a cancelled or interrupted call raises: [asyncio.CancelledError()]
    and [KeyboardInterrupt()] derive from [BaseException] only, and their
    [str()] is empty. *)
Definition interruption : Raised := {| is_Exception := false; detail := [] |}.

(** What a failed connection raises. *)
Definition connection_error : Raised :=
  {| is_Exception := true; detail := lit "Connection error." |}.

(** A response whose content has white space around it. *)
Definition padded_reply : ChatCompletion :=
  {| choices :=
       [ {| message :=
              {| content := Some (nl ++ lit "  You are a chess coach. " ++ nl) |} |} ] |}.

(** What a page shows as result, or nothing when the handler raised. *)
Definition shown_result (page : result TemplateContext) : option str :=
  match page with
  | Ok ctx => Some (ctx_result ctx)
  | Raise _ => None
  end.

(** [raw] is [field] with white space, and nothing else, around it. *)
Definition padded (raw field : str) : Prop :=
  exists left right,
    raw = left ++ field ++ right
    /\ forallb isspace left = true /\ forallb isspace right = true.


(** * Properties *)

(** ** Strings *)

Section StrFacts.

Implicit Types s t x : str.

Lemma or_empty_l t : or_ [] t = t.
Proof. reflexivity. Qed.

Lemma or_nonempty s t : s <> [] -> or_ s t = s.
Proof. destruct s; [congruence | reflexivity]. Qed.

Lemma or_truthy s t : t <> [] -> or_ s t <> [].
Proof. destruct s; simpl; [tauto | discriminate]. Qed.

Lemma eqb_true s t : eqb s t = true <-> s = t.
Proof. unfold eqb. apply bool_decide_eq_true. Qed.

Lemma eqb_false s t : eqb s t = false <-> s <> t.
Proof. unfold eqb. apply bool_decide_eq_false. Qed.

Lemma lstrip_head_clean s : head_clean (lstrip s) = true.
Proof.
  induction s as [|c s IH]; simpl; [reflexivity|].
  destruct (isspace c) eqn:E; [exact IH|].
  simpl. rewrite E. reflexivity.
Qed.

(** [lstrip] drops a prefix made of white space only. *)
Lemma lstrip_suffix s :
  exists ws, s = ws ++ lstrip s /\ forallb isspace ws = true.
Proof.
  induction s as [|c s [ws [IH Hws]]]; simpl.
  - exists []. split; reflexivity.
  - destruct (isspace c) eqn:E.
    + exists (c :: ws). simpl. rewrite E, Hws. split; [congruence | reflexivity].
    + exists []. split; reflexivity.
Qed.

(** [rstrip] drops a suffix. *)
Lemma rstrip_prefix s : exists ws, s = rstrip s ++ ws.
Proof.
  unfold rstrip. destruct (lstrip_suffix (rev s)) as [ws [H _]].
  exists (rev ws). rewrite <- rev_app_distr, <- H, rev_involutive. reflexivity.
Qed.

Lemma head_clean_prefix s t : head_clean (s ++ t) = true -> head_clean s = true.
Proof. destruct s; simpl; auto. Qed.

Lemma strip_is_trimmed s : is_trimmed (strip s) = true.
Proof.
  unfold is_trimmed, strip. apply andb_true_intro. split.
  - destruct (rstrip_prefix (lstrip s)) as [ws H].
    apply head_clean_prefix with (t := ws). rewrite <- H.
    apply lstrip_head_clean.
  - unfold rstrip. rewrite rev_involutive. apply lstrip_head_clean.
Qed.

Lemma strip_nil : strip [] = [].
Proof. reflexivity. Qed.

Lemma contains_here x t : contains (x ++ t) x.
Proof. exists [], t. reflexivity. Qed.

Lemma contains_here2 x y t : contains (x ++ y ++ t) (x ++ y).
Proof. exists [], t. rewrite <- app_assoc. reflexivity. Qed.

Lemma contains_end x : contains x x.
Proof. exists [], []. rewrite app_nil_r. reflexivity. Qed.

Lemma contains_skip s t x : contains t x -> contains (s ++ t) x.
Proof.
  intros [pre [post H]]. exists (s ++ pre), post.
  rewrite H, <- app_assoc. reflexivity.
Qed.

Lemma contains_prefix s t x : contains s x -> contains (s ++ t) x.
Proof.
  intros [pre [post H]]. exists pre, (post ++ t).
  rewrite H, <- !app_assoc. reflexivity.
Qed.

Lemma startswithb_sound s x : startswithb s x = true -> startswith s x.
Proof.
  revert s. induction x as [|c x IH]; intros s H.
  - exists s. reflexivity.
  - destruct s as [|d s]; simpl in H; [discriminate|].
    apply andb_prop in H. destruct H as [Hc Hx].
    apply N.eqb_eq in Hc. subst d.
    destruct (IH s Hx) as [rest E]. exists rest. rewrite E. reflexivity.
Qed.

Lemma containsb_sound s x : containsb s x = true -> contains s x.
Proof.
  induction s as [|d s IH]; intros H.
  - destruct x; [apply contains_end | discriminate H].
  - cbn [containsb] in H. apply orb_prop in H. destruct H as [H|H].
    + apply startswithb_sound in H. destruct H as [rest E].
      exists [], rest. exact E.
    + apply (contains_skip [d]). apply IH. exact H.
Qed.

End StrFacts.

(** Finds a segment of a right-nested concatenation. *)
Ltac find_segment :=
  first [ apply contains_here
        | apply contains_here2
        | apply contains_end
        | apply contains_skip; find_segment ].

(** ** The tone table and the builders *)

Lemma TONE_MAP_neutral : TONE_MAP !! lit "neutral" = Some neutral_guidance.
Proof. reflexivity. Qed.

(** The tone-guidance sentence of a [PromptInputs]. *)
Lemma build_common_guidance_eq inputs :
  build_common_guidance inputs
  = Ok (get TONE_MAP (tone inputs) neutral_guidance).
Proof.
  unfold build_common_guidance, getitem.
  rewrite TONE_MAP_neutral. reflexivity.
Qed.

Lemma TONE_MAP_unrecognized (t : str) :
  t <> lit "neutral" -> t <> lit "friendly" ->
  t <> lit "professional" -> t <> lit "playful" ->
  TONE_MAP !! t = None.
Proof.
  intros Hn Hf Hpr Hpl. unfold TONE_MAP.
  rewrite !lookup_insert_ne by congruence.
  apply lookup_empty.
Qed.

(** Unfolds a builder down to the text it returns. *)
Ltac run_builder :=
  unfold build_refined_prompt, build_generated_prompt;
  rewrite build_common_guidance_eq;
  cbv [mbind result_bind].

Lemma build_refined_prompt_ok inputs :
  exists text, build_refined_prompt inputs = Ok text.
Proof. run_builder. eexists. reflexivity. Qed.

Lemma build_generated_prompt_ok inputs :
  exists text, build_generated_prompt inputs = Ok text.
Proof. run_builder. eexists. reflexivity. Qed.

(** C1: for every [PromptInputs] both builders return a text (neither
    raises), and that text contains the audience string and the
    tone-guidance sentence of the inputs as substrings. *)
Theorem builders_total_with_audience_and_guidance (inputs : PromptInputs) :
  exists guidance refined generated,
    build_common_guidance inputs = Ok guidance
    /\ build_refined_prompt inputs = Ok refined
    /\ contains refined (audience inputs) /\ contains refined guidance
    /\ build_generated_prompt inputs = Ok generated
    /\ contains generated (audience inputs) /\ contains generated guidance.
Proof.
  run_builder. do 3 eexists.
  split; [reflexivity|].
  split; [reflexivity|].
  split; [find_segment|].
  split; [find_segment|].
  split; [reflexivity|].
  split; find_segment.
Qed.

(** C6: for a tone outside the recognized set the tone-guidance lookup
    returns the neutral guidance sentence. *)
Theorem unrecognized_tone_falls_back_to_neutral (inputs : PromptInputs) :
  tone inputs ∉ recognized_tones ->
  build_common_guidance inputs = Ok neutral_guidance.
Proof.
  unfold recognized_tones. rewrite !not_elem_of_cons.
  intros (Hn & Hf & Hpr & Hpl & _).
  rewrite build_common_guidance_eq. unfold get.
  rewrite TONE_MAP_unrecognized by assumption. reflexivity.
Qed.

Lemma unrecognized_tone_falls_back_to_neutral_witness :
  (lit "formal" ∉ recognized_tones)
  /\ (build_common_guidance
        (mkPromptInputs (lit "generate") [] (lit "learn chess") (lit "general")
                        (lit "formal") [])
      = Ok neutral_guidance).
Proof.
  assert (H : lit "formal" ∉ recognized_tones).
  { unfold recognized_tones. rewrite !not_elem_of_cons.
    repeat split; try (intro E; vm_compute in E; discriminate E).
    apply not_elem_of_nil. }
  split; [exact H|].
  apply (unrecognized_tone_falls_back_to_neutral
           (mkPromptInputs (lit "generate") [] (lit "learn chess") (lit "general")
                           (lit "formal") [])).
  exact H.
Defined.

(** Projections of a record the handler has just built. *)
Ltac project_inputs :=
  cbn [refine_inputs mode original_prompt goal audience tone constraints].

(** A builder finds the placeholder or the fixed phrase in the slot of an
    empty field. *)
Lemma refined_placeholder_of_empty inputs :
  original_prompt inputs = [] ->
  exists text, build_refined_prompt inputs = Ok text
               /\ contains text base_placeholder.
Proof.
  intros H. run_builder. rewrite H, or_empty_l.
  eexists. split; [reflexivity | find_segment].
Qed.

Lemma generated_placeholder_of_empty inputs :
  goal inputs = [] ->
  exists text, build_generated_prompt inputs = Ok text
               /\ contains text goal_placeholder.
Proof.
  intros H. run_builder. rewrite H, or_empty_l.
  eexists. split; [reflexivity | find_segment].
Qed.

(** C7: when the original prompt is blank (empty once trimmed), the text
    [build_refined_prompt] constructs from the handler's [PromptInputs]
    contains the placeholder "[Paste your base prompt here]". *)
Theorem blank_original_prompt_yields_placeholder
    (mode original_prompt goal audience tone constraints : str) :
  strip original_prompt = [] ->
  exists text,
    build_refined_prompt
      (refine_inputs mode original_prompt goal audience tone constraints)
    = Ok text
    /\ contains text (lit "[Paste your base prompt here]").
Proof.
  intros H. apply refined_placeholder_of_empty. project_inputs. exact H.
Qed.

Lemma blank_original_prompt_yields_placeholder_witness :
  strip (lit "  ") = []
  /\ exists text,
       build_refined_prompt
         (refine_inputs (lit "refine") (lit "  ") [] [] (lit "playful") [])
       = Ok text
       /\ contains text (lit "[Paste your base prompt here]").
Proof.
  split; [reflexivity|].
  apply (blank_original_prompt_yields_placeholder
           (lit "refine") (lit "  ") [] [] (lit "playful") []).
  reflexivity.
Defined.

(** C8: when the goal is blank (empty once trimmed), the text
    [build_generated_prompt] constructs from the handler's [PromptInputs]
    contains the placeholder "[Describe the outcome you want to achieve]". *)
Theorem blank_goal_yields_placeholder
    (mode original_prompt goal audience tone constraints : str) :
  strip goal = [] ->
  exists text,
    build_generated_prompt
      (refine_inputs mode original_prompt goal audience tone constraints)
    = Ok text
    /\ contains text (lit "[Describe the outcome you want to achieve]").
Proof.
  intros H. apply generated_placeholder_of_empty. project_inputs. exact H.
Qed.

Lemma blank_goal_yields_placeholder_witness :
  strip (nl ++ lit " ") = []
  /\ exists text,
       build_generated_prompt
         (refine_inputs (lit "generate") [] (nl ++ lit " ") (lit "students")
                        (lit "friendly") (lit "Under 100 words."))
       = Ok text
       /\ contains text (lit "[Describe the outcome you want to achieve]").
Proof.
  split; [reflexivity|].
  apply (blank_goal_yields_placeholder
           (lit "generate") [] (nl ++ lit " ") (lit "students")
           (lit "friendly") (lit "Under 100 words.")).
  reflexivity.
Defined.

Lemma builders_of_empty_constraints inputs :
  constraints inputs = [] ->
  exists refined generated,
    build_refined_prompt inputs = Ok refined
    /\ build_generated_prompt inputs = Ok generated
    /\ contains refined (lit "Constraints: " ++ no_constraints)
    /\ contains generated (lit "Constraints: " ++ no_constraints)
    /\ build_refined_prompt (with_constraints inputs no_constraints) = Ok refined
    /\ build_generated_prompt (with_constraints inputs no_constraints)
       = Ok generated.
Proof.
  intros H. run_builder.
  cbn [with_constraints mode original_prompt goal audience tone constraints].
  rewrite H, or_empty_l.
  do 2 eexists.
  split; [reflexivity|].
  split; [reflexivity|].
  split; [find_segment|].
  split; [find_segment|].
  split; reflexivity.
Qed.

(** C9: when the constraints are blank, both builders put the fixed phrase
    "No additional constraints." where the constraints text goes: the text
    of each contains "Constraints: No additional constraints." and is the
    text built from the same inputs with that phrase as constraints. *)
Theorem blank_constraints_yield_fixed_phrase
    (mode original_prompt goal audience tone constraints : str) :
  strip constraints = [] ->
  let inputs :=
    refine_inputs mode original_prompt goal audience tone constraints in
  let phrase := lit "No additional constraints." in
  exists refined generated,
    build_refined_prompt inputs = Ok refined
    /\ build_generated_prompt inputs = Ok generated
    /\ contains refined (lit "Constraints: " ++ phrase)
    /\ contains generated (lit "Constraints: " ++ phrase)
    /\ build_refined_prompt (with_constraints inputs phrase) = Ok refined
    /\ build_generated_prompt (with_constraints inputs phrase) = Ok generated.
Proof.
  intros H inputs phrase.
  apply builders_of_empty_constraints. subst inputs. project_inputs. exact H.
Qed.

Lemma blank_constraints_yield_fixed_phrase_witness :
  strip (lit " ") = []
  /\ exists refined generated,
       let inputs :=
         refine_inputs (lit "refine") (lit "Summarise this.") []
                       (lit "engineers") (lit "professional") (lit " ") in
       build_refined_prompt inputs = Ok refined
       /\ build_generated_prompt inputs = Ok generated
       /\ contains refined (lit "Constraints: No additional constraints.")
       /\ contains generated (lit "Constraints: No additional constraints.").
Proof.
  split; [reflexivity|].
  destruct (blank_constraints_yield_fixed_phrase
              (lit "refine") (lit "Summarise this.") []
              (lit "engineers") (lit "professional") (lit " ") eq_refl)
    as (refined & generated & Hr & Hg & Cr & Cg & _).
  exists refined, generated. cbv zeta. auto.
Defined.

(** ** The construction of [PromptInputs] in the handler *)

(** C5, as stated, fails: the handler stores [mode] and [tone] as they were
    submitted, so white space around them stays in the [PromptInputs]. *)
Lemma submitted_mode_and_tone_keep_whitespace :
  let inputs :=
    refine_inputs (lit " refine") (lit " Fix this. ") [] (lit " devs ")
                  (lit "playful ") [] in
  mode inputs = lit " refine"
  /\ tone inputs = lit "playful "
  /\ is_trimmed (mode inputs) = false
  /\ is_trimmed (tone inputs) = false
  /\ all_text_fields_trimmed inputs = false.
Proof. cbv zeta. repeat split; reflexivity. Qed.

(** C5, amended: on construction the free-text fields [original_prompt],
    [goal], [audience] and [constraints] are trimmed of surrounding white
    space (a blank audience becomes "general"), while [mode] and [tone] are
    stored exactly as submitted. *)
Theorem free_text_fields_trimmed_on_construction
    (raw_mode raw_original_prompt raw_goal raw_audience raw_tone
     raw_constraints : str) :
  let inputs :=
    refine_inputs raw_mode raw_original_prompt raw_goal raw_audience raw_tone
                  raw_constraints in
  original_prompt inputs = strip raw_original_prompt
  /\ goal inputs = strip raw_goal
  /\ constraints inputs = strip raw_constraints
  /\ audience inputs
     = (if truthy (strip raw_audience) then strip raw_audience
        else lit "general")
  /\ is_trimmed (original_prompt inputs) = true
  /\ is_trimmed (goal inputs) = true
  /\ is_trimmed (audience inputs) = true
  /\ is_trimmed (constraints inputs) = true
  /\ mode inputs = raw_mode
  /\ tone inputs = raw_tone.
Proof.
  cbv zeta. project_inputs. unfold or_.
  repeat split; try apply strip_is_trimmed.
  destruct (truthy (strip raw_audience)); [apply strip_is_trimmed | reflexivity].
Qed.

(** ** The choice of the builder *)

(** The two builders never construct the same text. *)
Lemma builders_differ inputs :
  build_refined_prompt inputs <> build_generated_prompt inputs.
Proof.
  run_builder. intros H. injection H as H.
  cbn [lit list_ascii_of_string List.map app] in H.
  discriminate H.
Qed.

Lemma refine_prompt_refine inputs :
  mode inputs = lit "refine" ->
  refine_prompt inputs = build_refined_prompt inputs.
Proof.
  intros H. unfold refine_prompt.
  destruct (eqb (mode inputs) (lit "refine")) eqn:E; [reflexivity|].
  apply eqb_false in E. contradiction.
Qed.

Lemma refine_prompt_other inputs :
  mode inputs <> lit "refine" ->
  refine_prompt inputs = build_generated_prompt inputs.
Proof.
  intros H. unfold refine_prompt.
  destruct (eqb (mode inputs) (lit "refine")) eqn:E; [|reflexivity].
  apply eqb_true in E. contradiction.
Qed.

(** C10: for every mode that is not exactly "refine" the handler
    constructs the prompt with [build_generated_prompt] and not with
    [build_refined_prompt]; the latter is used when the mode is "refine"
    itself. *)
Theorem only_exact_refine_mode_uses_refined_builder
    (mode original_prompt goal audience tone constraints : str) :
  mode <> lit "refine" ->
  let inputs :=
    refine_inputs mode original_prompt goal audience tone constraints in
  let refine_inputs' :=
    refine_inputs (lit "refine") original_prompt goal audience tone
                  constraints in
  refine_prompt inputs = build_generated_prompt inputs
  /\ refine_prompt inputs <> build_refined_prompt inputs
  /\ refine_prompt refine_inputs' = build_refined_prompt refine_inputs'.
Proof.
  intros H inputs inputs'.
  assert (G : refine_prompt inputs = build_generated_prompt inputs)
    by (apply refine_prompt_other; exact H).
  split; [exact G|]. split.
  - rewrite G. intros E. symmetry in E. exact (builders_differ _ E).
  - apply refine_prompt_refine. reflexivity.
Qed.

Lemma only_exact_refine_mode_uses_refined_builder_witness :
  lit " refine" <> lit "refine"
  /\ lit "Refine" <> lit "refine"
  /\ lit "rewrite" <> lit "refine"
  /\ (let inputs :=
        refine_inputs (lit " refine") (lit "Fix this.") [] [] (lit "neutral") [] in
      refine_prompt inputs = build_generated_prompt inputs)
  /\ (let inputs :=
        refine_inputs (lit "Refine") (lit "Fix this.") [] [] (lit "neutral") [] in
      refine_prompt inputs = build_generated_prompt inputs)
  /\ (let inputs :=
        refine_inputs (lit "rewrite") (lit "Fix this.") [] [] (lit "neutral") [] in
      refine_prompt inputs = build_generated_prompt inputs).
Proof.
  assert (H1 : lit " refine" <> lit "refine") by (intro E; vm_compute in E; discriminate E).
  assert (H2 : lit "Refine" <> lit "refine") by (intro E; vm_compute in E; discriminate E).
  assert (H3 : lit "rewrite" <> lit "refine") by (intro E; vm_compute in E; discriminate E).
  split; [exact H1|]. split; [exact H2|]. split; [exact H3|].
  split; [|split].
  - exact (proj1 (only_exact_refine_mode_uses_refined_builder
                    (lit " refine") (lit "Fix this.") [] [] (lit "neutral") [] H1)).
  - exact (proj1 (only_exact_refine_mode_uses_refined_builder
                    (lit "Refine") (lit "Fix this.") [] [] (lit "neutral") [] H2)).
  - exact (proj1 (only_exact_refine_mode_uses_refined_builder
                    (lit "rewrite") (lit "Fix this.") [] [] (lit "neutral") [] H3)).
Defined.

(** ** The completion requester *)

Section Requester.

Variable environ : gmap str str.
Variable AsyncOpenAI : str -> Request -> Outcome.

Lemma unset_key_is_blank :
  environ !! lit "OPENAI_API_KEY" = None -> OPENAI_API_KEY environ = [].
Proof.
  intros H. unfold OPENAI_API_KEY, getenv, get. rewrite H. reflexivity.
Qed.

Lemma blank_key_no_client :
  OPENAI_API_KEY environ = [] -> openai_client environ AsyncOpenAI = None.
Proof. intros H. unfold openai_client. rewrite H. reflexivity. Qed.

Lemma run_openai_raises (prompt : str) create exc :
  openai_client environ AsyncOpenAI = Some create ->
  create (completion_request environ prompt) = Raises exc ->
  run_openai environ AsyncOpenAI prompt
  = if is_Exception exc
    then Ok (lit "OpenAI request failed. Please try again." ++ nl ++ nl
             ++ lit "Details: " ++ detail exc ++ nl ++ nl
             ++ lit "Constructed prompt:" ++ nl
             ++ prompt)
    else Raise (CallError exc).
Proof. intros Hc Hr. unfold run_openai. rewrite Hc, Hr. reflexivity. Qed.

(** An object that is no instance of [Exception] is not caught. *)
Lemma run_openai_propagates (prompt : str) create exc :
  openai_client environ AsyncOpenAI = Some create ->
  create (completion_request environ prompt) = Raises exc ->
  is_Exception exc = false ->
  run_openai environ AsyncOpenAI prompt = Raise (CallError exc).
Proof.
  intros Hc Hr He. rewrite (run_openai_raises prompt create exc Hc Hr), He.
  reflexivity.
Qed.

Lemma run_openai_returns (prompt : str) create response :
  openai_client environ AsyncOpenAI = Some create ->
  create (completion_request environ prompt) = Returns response ->
  run_openai environ AsyncOpenAI prompt
  = Ok (match choices response with
        | [] => []
        | choice :: _ =>
            match content (message choice) with
            | Some text => if truthy text then strip text else []
            | None => []
            end
        end).
Proof.
  intros Hc Hr. unfold run_openai. rewrite Hc, Hr.
  destruct (choices response); reflexivity.
Qed.

End Requester.

(** C2: with no API credential configured, the result of [run_openai]
    starts with "OpenAI is not configured." and the whole constructed
    prompt follows later in it, at its end. *)
Theorem not_configured_notice_echoes_prompt
    (environ : gmap str str) (AsyncOpenAI : str -> Request -> Outcome)
    (prompt : str) :
  OPENAI_API_KEY environ = [] ->
  exists between,
    run_openai environ AsyncOpenAI prompt
    = Ok (lit "OpenAI is not configured." ++ between ++ prompt).
Proof.
  intros H. unfold run_openai.
  rewrite (blank_key_no_client environ AsyncOpenAI H).
  exists (lit " Set OPENAI_API_KEY to enable refinement." ++ nl ++ nl
          ++ lit "Constructed prompt:" ++ nl).
  reflexivity.
Qed.

Lemma not_configured_notice_echoes_prompt_witness :
  OPENAI_API_KEY ∅ = []
  /\ exists between,
       run_openai ∅ (constant_service (Returns (mkChatCompletion [])))
                  (lit "Goal: learn chess")
       = Ok (lit "OpenAI is not configured." ++ between
             ++ lit "Goal: learn chess").
Proof.
  split; [reflexivity|].
  apply (not_configured_notice_echoes_prompt
           ∅ (constant_service (Returns (mkChatCompletion [])))
           (lit "Goal: learn chess")).
  reflexivity.
Defined.

(** C3, as stated, fails: an exception of the outbound call that is no
    instance of [Exception] passes the [except Exception] clause and
    reaches the caller. *)
Lemma interruption_reaches_the_caller :
  let AsyncOpenAI := constant_service (Raises interruption) in
  let prompt := lit "Goal: learn chess" in
  (exists create,
      openai_client configured_environ AsyncOpenAI = Some create
      /\ create (completion_request configured_environ prompt)
         = Raises interruption)
  /\ run_openai configured_environ AsyncOpenAI prompt
     = Raise (CallError interruption)
  /\ ~ (exists text, run_openai configured_environ AsyncOpenAI prompt = Ok text).
Proof.
  cbv zeta. split; [|split].
  - eexists. split; reflexivity.
  - reflexivity.
  - intros [text H]. vm_compute in H. discriminate H.
Qed.

(** C3, amended: if the outbound call raises an instance of [Exception],
    [run_openai] catches it and returns (nothing reaches the caller) a
    result that starts with "OpenAI request failed." and goes on with the
    failure detail and, at its end, the constructed prompt. *)
Theorem caught_exception_notice
    (environ : gmap str str) (AsyncOpenAI : str -> Request -> Outcome)
    (prompt : str) (create : Request -> Outcome) (exc : Raised) :
  openai_client environ AsyncOpenAI = Some create ->
  create (completion_request environ prompt) = Raises exc ->
  is_Exception exc = true ->
  exists before after,
    run_openai environ AsyncOpenAI prompt
    = Ok (lit "OpenAI request failed." ++ before ++ detail exc ++ after
          ++ prompt).
Proof.
  intros Hc Hr He.
  rewrite (run_openai_raises environ AsyncOpenAI prompt create exc Hc Hr), He.
  exists (lit " Please try again." ++ nl ++ nl ++ lit "Details: ").
  exists (nl ++ nl ++ lit "Constructed prompt:" ++ nl).
  reflexivity.
Qed.

Lemma caught_exception_notice_witness :
  let AsyncOpenAI := constant_service (Raises connection_error) in
  let prompt := lit "Goal: learn chess" in
  openai_client configured_environ AsyncOpenAI
  = Some (AsyncOpenAI (lit "sk-test"))
  /\ AsyncOpenAI (lit "sk-test") (completion_request configured_environ prompt)
     = Raises connection_error
  /\ is_Exception connection_error = true
  /\ exists before after,
       run_openai configured_environ AsyncOpenAI prompt
       = Ok (lit "OpenAI request failed." ++ before ++ lit "Connection error."
             ++ after ++ prompt).
Proof.
  cbv zeta.
  split; [reflexivity|]. split; [reflexivity|]. split; [reflexivity|].
  apply (caught_exception_notice
           configured_environ (constant_service (Raises connection_error))
           (lit "Goal: learn chess")
           (constant_service (Raises connection_error) (lit "sk-test"))
           connection_error);
    reflexivity.
Defined.

(** C4: when the outbound call succeeds, [run_openai] returns the empty
    string if the response has no choices or the content of its first choice
    is [None] or empty, and the content with surrounding white space
    trimmed otherwise. *)
Theorem successful_call_returns_trimmed_content
    (environ : gmap str str) (AsyncOpenAI : str -> Request -> Outcome)
    (prompt : str) (create : Request -> Outcome) (response : ChatCompletion) :
  openai_client environ AsyncOpenAI = Some create ->
  create (completion_request environ prompt) = Returns response ->
  let returned := run_openai environ AsyncOpenAI prompt in
  (choices response = [] -> returned = Ok [])
  /\ (forall choice rest,
        choices response = choice :: rest ->
        content (message choice) = None -> returned = Ok [])
  /\ (forall choice rest,
        choices response = choice :: rest ->
        content (message choice) = Some [] -> returned = Ok [])
  /\ (forall choice rest text,
        choices response = choice :: rest ->
        content (message choice) = Some text -> text <> [] ->
        returned = Ok (strip text)
        /\ is_trimmed (strip text) = true).
Proof.
  intros Hc Hr returned. subst returned.
  rewrite (run_openai_returns environ AsyncOpenAI prompt create response Hc Hr).
  split; [|split; [|split]].
  - intros E. rewrite E. reflexivity.
  - intros choice rest E N. rewrite E, N. reflexivity.
  - intros choice rest E N. rewrite E, N. reflexivity.
  - intros choice rest text E N T. rewrite E, N. split.
    + destruct text; [contradiction | reflexivity].
    + apply strip_is_trimmed.
Qed.

Lemma successful_call_returns_trimmed_content_witness :
  let AsyncOpenAI := constant_service (Returns padded_reply) in
  let prompt := lit "Goal: learn chess" in
  openai_client configured_environ AsyncOpenAI
  = Some (AsyncOpenAI (lit "sk-test"))
  /\ AsyncOpenAI (lit "sk-test") (completion_request configured_environ prompt)
     = Returns padded_reply
  /\ run_openai configured_environ AsyncOpenAI prompt
     = Ok (lit "You are a chess coach.").
Proof.
  cbv zeta.
  split; [reflexivity|]. split; [reflexivity|].
  destruct (successful_call_returns_trimmed_content
              configured_environ (constant_service (Returns padded_reply))
              (lit "Goal: learn chess")
              (constant_service (Returns padded_reply) (lit "sk-test"))
              padded_reply eq_refl eq_refl)
    as (_ & _ & _ & H).
  destruct (H (mkChoice (mkChatCompletionMessage
                           (Some (nl ++ lit "  You are a chess coach. " ++ nl))))
              [] (nl ++ lit "  You are a chess coach. " ++ nl)
              eq_refl eq_refl) as [R _].
  - discriminate.
  - exact R.
Defined.

(** ** The handler, end to end *)

(** A refine request with every free-text field blank and the playful tone,
    with no credential configured. *)
Example blank_refine_request_without_credential :
  exists text,
    shown_result
      (refine ∅ (constant_service (Returns padded_reply)) (lit "2024-01-01 00:00 UTC")
              (lit "refine") [] [] [] (lit "playful") [])
    = Some text
    /\ contains text (lit "OpenAI is not configured.")
    /\ contains text (lit "Use a playful, light tone")
    /\ contains text (lit "general")
    /\ contains text (lit "[Paste your base prompt here]").
Proof.
  eexists. split; [vm_compute; reflexivity|].
  repeat split; apply containsb_sound; vm_compute; reflexivity.
Qed.

(** A generate request with a goal and the professional tone, with no
    credential configured. *)
Example generate_request_without_credential :
  exists text,
    shown_result
      (refine ∅ (constant_service (Returns padded_reply)) (lit "2024-01-01 00:00 UTC")
              (lit "generate") [] (lit "learn chess") (lit "general")
              (lit "professional") [])
    = Some text
    /\ contains text (lit "learn chess")
    /\ contains text (lit "crisp, professional tone").
Proof.
  eexists. split; [vm_compute; reflexivity|].
  repeat split; apply containsb_sound; vm_compute; reflexivity.
Qed.

(** * Further properties of the code *)

(** ** Trimming *)

Section StripFacts.

Implicit Types s t ws : str.

Lemma forallb_isspace_rev ws :
  forallb isspace (rev ws) = forallb isspace ws.
Proof.
  induction ws as [|c ws IH]; [reflexivity|].
  simpl. rewrite forallb_app, IH. simpl.
  rewrite andb_true_r. apply andb_comm.
Qed.

Lemma lstrip_all_space s : forallb isspace s = true -> lstrip s = [].
Proof.
  induction s as [|c s IH]; simpl; [reflexivity|].
  intros H. apply andb_prop in H. destruct H as [Hc Hs].
  rewrite Hc. exact (IH Hs).
Qed.

Lemma lstrip_clean s : head_clean s = true -> lstrip s = s.
Proof.
  destruct s as [|c s]; simpl; [reflexivity|].
  destruct (isspace c); [discriminate | reflexivity].
Qed.

Lemma strip_fixed s : is_trimmed s = true -> strip s = s.
Proof.
  unfold is_trimmed, strip, rstrip. intros H.
  apply andb_prop in H. destruct H as [Hl Hr].
  rewrite (lstrip_clean s Hl), (lstrip_clean (rev s) Hr).
  apply rev_involutive.
Qed.

Lemma strip_idempotent s : strip (strip s) = strip s.
Proof. apply strip_fixed, strip_is_trimmed. Qed.

Lemma strip_padded s : padded s (strip s).
Proof.
  destruct (lstrip_suffix s) as [left [El Hl]].
  destruct (lstrip_suffix (rev (lstrip s))) as [right [Er Hr]].
  exists left, (rev right). split; [|split].
  - rewrite El at 1. f_equal.
    unfold strip, rstrip. rewrite <- rev_app_distr, <- Er.
    symmetry. apply rev_involutive.
  - exact Hl.
  - rewrite forallb_isspace_rev. exact Hr.
Qed.

Lemma strip_empty_iff s : strip s = [] <-> forallb isspace s = true.
Proof.
  split.
  - intros H. destruct (strip_padded s) as (left & right & E & Hl & Hr).
    rewrite H in E. rewrite E. simpl.
    rewrite forallb_app, Hl, Hr. reflexivity.
  - intros H. unfold strip. rewrite (lstrip_all_space s H). reflexivity.
Qed.

End StripFacts.

(** ** More on the construction of [PromptInputs] *)

Lemma or_general_nonempty (s : str) : or_ s (lit "general") <> [].
Proof. destruct s; simpl; discriminate. Qed.

Lemma strip_or_general (s : str) :
  strip (or_ (strip s) (lit "general")) = or_ (strip s) (lit "general").
Proof.
  unfold or_. destruct (truthy (strip s)).
  - apply strip_idempotent.
  - reflexivity.
Qed.

(** X1: the page echoes the [PromptInputs] it was built from; submitting
    the echoed fields again constructs the same [PromptInputs]. *)
Theorem resubmitting_echoed_inputs_changes_nothing
    (raw_mode raw_original_prompt raw_goal raw_audience raw_tone
     raw_constraints : str) :
  let inputs :=
    refine_inputs raw_mode raw_original_prompt raw_goal raw_audience raw_tone
                  raw_constraints in
  refine_inputs (mode inputs) (original_prompt inputs) (goal inputs)
                (audience inputs) (tone inputs) (constraints inputs)
  = inputs.
Proof.
  cbv zeta. unfold refine_inputs at 1. project_inputs.
  rewrite !strip_idempotent, strip_or_general.
  assert (E : or_ (or_ (strip raw_audience) (lit "general")) (lit "general")
              = or_ (strip raw_audience) (lit "general")).
  { apply or_nonempty, or_general_nonempty. }
  rewrite E. reflexivity.
Qed.

(** X2: trimming removes white space at the two ends only: each submitted
    free-text field is the stored field with white space around it, so
    the text between the ends is kept as it was. *)
Theorem construction_removes_only_surrounding_whitespace
    (raw_mode raw_original_prompt raw_goal raw_audience raw_tone
     raw_constraints : str) :
  let inputs :=
    refine_inputs raw_mode raw_original_prompt raw_goal raw_audience raw_tone
                  raw_constraints in
  padded raw_original_prompt (original_prompt inputs)
  /\ padded raw_goal (goal inputs)
  /\ padded raw_constraints (constraints inputs)
  /\ (audience inputs = lit "general" \/ padded raw_audience (audience inputs)).
Proof.
  cbv zeta. project_inputs.
  split; [apply strip_padded|].
  split; [apply strip_padded|].
  split; [apply strip_padded|].
  unfold or_. destruct (truthy (strip raw_audience)).
  - right. apply strip_padded.
  - left. reflexivity.
Qed.

(** X3: a free-text field is stored empty, and so replaced by its
    placeholder or fixed phrase in the prompt, exactly when every code
    point of the submitted text is white space. *)
Theorem field_stored_empty_iff_only_whitespace
    (raw_mode raw_original_prompt raw_goal raw_audience raw_tone
     raw_constraints : str) :
  let inputs :=
    refine_inputs raw_mode raw_original_prompt raw_goal raw_audience raw_tone
                  raw_constraints in
  (original_prompt inputs = [] <-> forallb isspace raw_original_prompt = true)
  /\ (goal inputs = [] <-> forallb isspace raw_goal = true)
  /\ (constraints inputs = [] <-> forallb isspace raw_constraints = true).
Proof.
  cbv zeta. project_inputs.
  split; [apply strip_empty_iff|].
  split; apply strip_empty_iff.
Qed.

(** X4: the audience of a constructed [PromptInputs] is never empty. *)
Theorem constructed_audience_is_never_empty
    (raw_mode raw_original_prompt raw_goal raw_audience raw_tone
     raw_constraints : str) :
  audience (refine_inputs raw_mode raw_original_prompt raw_goal raw_audience
                          raw_tone raw_constraints)
  <> [].
Proof. project_inputs. apply or_general_nonempty. Qed.

(** X5: a submission whose audience is white space only constructs the
    same [PromptInputs] as one whose audience is "general". *)
Theorem blank_audience_is_general
    (raw_mode raw_original_prompt raw_goal raw_audience raw_tone
     raw_constraints : str) :
  forallb isspace raw_audience = true ->
  refine_inputs raw_mode raw_original_prompt raw_goal raw_audience raw_tone
                raw_constraints
  = refine_inputs raw_mode raw_original_prompt raw_goal (lit "general")
                  raw_tone raw_constraints.
Proof.
  intros H. apply strip_empty_iff in H.
  unfold refine_inputs. rewrite H. reflexivity.
Qed.

Lemma blank_audience_is_general_witness :
  forallb isspace (lit "  " ++ nl) = true
  /\ refine_inputs (lit "generate") [] (lit "learn chess") (lit "  " ++ nl)
                   (lit "neutral") []
     = refine_inputs (lit "generate") [] (lit "learn chess") (lit "general")
                     (lit "neutral") [].
Proof.
  split; [reflexivity|].
  apply (blank_audience_is_general
           (lit "generate") [] (lit "learn chess") (lit "  " ++ nl)
           (lit "neutral") []).
  reflexivity.
Defined.

(** ** More on the tone table and the builders *)

(** What a lookup in [TONE_MAP] can find. *)
Lemma TONE_MAP_lookup_cases (t : str) :
  (t = lit "neutral" /\ TONE_MAP !! t = Some neutral_guidance)
  \/ (t = lit "friendly"
      /\ TONE_MAP !! t
         = Some (lit "Use a warm, friendly tone that feels approachable."))
  \/ (t = lit "professional"
      /\ TONE_MAP !! t
         = Some (lit "Use a crisp, professional tone with confident wording."))
  \/ (t = lit "playful"
      /\ TONE_MAP !! t
         = Some (lit "Use a playful, light tone that still feels helpful."))
  \/ ((t ∉ recognized_tones) /\ TONE_MAP !! t = None).
Proof.
  destruct (decide (t = lit "neutral")) as [->|Hn];
    [left; split; reflexivity|].
  destruct (decide (t = lit "friendly")) as [->|Hf];
    [right; left; split; reflexivity|].
  destruct (decide (t = lit "professional")) as [->|Hpr];
    [right; right; left; split; reflexivity|].
  destruct (decide (t = lit "playful")) as [->|Hpl];
    [right; right; right; left; split; reflexivity|].
  right; right; right; right. split.
  - unfold recognized_tones. rewrite !not_elem_of_cons.
    repeat split; try assumption. apply not_elem_of_nil.
  - apply TONE_MAP_unrecognized; assumption.
Qed.


(** X7: the neutral sentence is the guidance exactly when the tone is
    "neutral" or is none of the recognized tones; each other recognized
    tone has a sentence of its own. *)
Theorem neutral_guidance_iff_neutral_or_unrecognized (inputs : PromptInputs) :
  build_common_guidance inputs = Ok neutral_guidance
  <-> (tone inputs = lit "neutral" \/ tone inputs ∉ recognized_tones).
Proof.
  rewrite build_common_guidance_eq. unfold get.
  destruct (TONE_MAP_lookup_cases (tone inputs))
    as [[T E]|[[T E]|[[T E]|[[T E]|[T E]]]]]; rewrite E; simpl.
  - split; [intros _; left; exact T | reflexivity].
  - split; [intros H; vm_compute in H; discriminate H|].
    intros [H|H].
    + rewrite T in H. vm_compute in H. discriminate H.
    + exfalso. apply H. rewrite T. unfold recognized_tones.
      apply list_elem_of_further, list_elem_of_here.
  - split; [intros H; vm_compute in H; discriminate H|].
    intros [H|H].
    + rewrite T in H. vm_compute in H. discriminate H.
    + exfalso. apply H. rewrite T. unfold recognized_tones.
      do 2 apply list_elem_of_further. apply list_elem_of_here.
  - split; [intros H; vm_compute in H; discriminate H|].
    intros [H|H].
    + rewrite T in H. vm_compute in H. discriminate H.
    + exfalso. apply H. rewrite T. unfold recognized_tones.
      do 3 apply list_elem_of_further. apply list_elem_of_here.
  - split; [intros _; right; exact T | reflexivity].
Qed.

(** X8: a non-empty original prompt is the end of the refined text, word
    for word, under the heading "Original prompt:". *)
Theorem refined_text_ends_with_original_prompt (inputs : PromptInputs) :
  original_prompt inputs <> [] ->
  exists before,
    build_refined_prompt inputs
    = Ok (before ++ lit "Original prompt:" ++ nl ++ original_prompt inputs).
Proof.
  intros H. run_builder. rewrite (or_nonempty _ base_placeholder H).
  eexists. f_equal. rewrite !app_assoc. reflexivity.
Qed.

Lemma refined_text_ends_with_original_prompt_witness :
  lit "Summarise this." <> []
  /\ exists before,
       build_refined_prompt
         (mkPromptInputs (lit "refine") (lit "Summarise this.") []
                         (lit "engineers") (lit "professional") [])
       = Ok (before ++ lit "Original prompt:" ++ nl ++ lit "Summarise this.").
Proof.
  split; [discriminate|].
  apply (refined_text_ends_with_original_prompt
           (mkPromptInputs (lit "refine") (lit "Summarise this.") []
                           (lit "engineers") (lit "professional") [])).
  discriminate.
Defined.

(** X9: a non-empty goal stands in the generated text, word for word, as
    the line "Goal: ..." right after the three lines of instructions. *)
Theorem generated_text_states_goal (inputs : PromptInputs) :
  goal inputs <> [] ->
  exists after,
    build_generated_prompt inputs
    = Ok (lit "Create a new prompt that guides an assistant to achieve the goal below." ++ nl
          ++ lit "Include a concise role, the task, required inputs, constraints, and output format." ++ nl
          ++ lit "Use placeholders for missing details the user should fill in." ++ nl
          ++ lit "Goal: " ++ goal inputs ++ nl ++ after).
Proof.
  intros H. run_builder. rewrite (or_nonempty _ goal_placeholder H).
  eexists. reflexivity.
Qed.

Lemma generated_text_states_goal_witness :
  lit "learn chess" <> []
  /\ exists text after,
       build_generated_prompt
         (mkPromptInputs (lit "generate") [] (lit "learn chess")
                         (lit "general") (lit "professional") [])
       = Ok text
       /\ text = lit "Create a new prompt that guides an assistant to achieve the goal below." ++ nl
                 ++ lit "Include a concise role, the task, required inputs, constraints, and output format." ++ nl
                 ++ lit "Use placeholders for missing details the user should fill in." ++ nl
                 ++ lit "Goal: learn chess" ++ nl ++ after.
Proof.
  split; [discriminate|].
  destruct (generated_text_states_goal
              (mkPromptInputs (lit "generate") [] (lit "learn chess")
                              (lit "general") (lit "professional") []))
    as [after E]; [discriminate|].
  eexists. exists after. split; [exact E | reflexivity].
Defined.

(** X10: non-empty constraints are put into both texts word for word,
    after "Constraints: "; in the generated text they are its end. *)
Theorem constraints_are_embedded_verbatim (inputs : PromptInputs) :
  constraints inputs <> [] ->
  exists refined generated before,
    build_refined_prompt inputs = Ok refined
    /\ contains refined (lit "Constraints: " ++ constraints inputs)
    /\ build_generated_prompt inputs = Ok generated
    /\ generated = before ++ lit "Constraints: " ++ constraints inputs.
Proof.
  intros H. run_builder. rewrite (or_nonempty _ no_constraints H).
  do 3 eexists.
  split; [reflexivity|].
  split; [find_segment|].
  split; [reflexivity|].
  rewrite !app_assoc. reflexivity.
Qed.

Lemma constraints_are_embedded_verbatim_witness :
  lit "Under 100 words." <> []
  /\ exists refined generated,
       let inputs :=
         mkPromptInputs (lit "refine") (lit "Summarise this.") []
                        (lit "engineers") (lit "neutral")
                        (lit "Under 100 words.") in
       build_refined_prompt inputs = Ok refined
       /\ contains refined (lit "Constraints: Under 100 words.")
       /\ build_generated_prompt inputs = Ok generated.
Proof.
  split; [discriminate|].
  destruct (constraints_are_embedded_verbatim
              (mkPromptInputs (lit "refine") (lit "Summarise this.") []
                              (lit "engineers") (lit "neutral")
                              (lit "Under 100 words.")))
    as (refined & generated & before & Hr & Cr & Hg & _); [discriminate|].
  exists refined, generated. cbv zeta. auto.
Defined.

(** X11: the refined text does not depend on the mode or the goal, and the
    generated text does not depend on the mode or the original prompt:
    inputs that agree on the other fields give the same text. *)
Theorem builders_ignore_the_other_modes_fields (inputs inputs' : PromptInputs) :
  audience inputs = audience inputs' ->
  tone inputs = tone inputs' ->
  constraints inputs = constraints inputs' ->
  (original_prompt inputs = original_prompt inputs' ->
   build_refined_prompt inputs = build_refined_prompt inputs')
  /\ (goal inputs = goal inputs' ->
      build_generated_prompt inputs = build_generated_prompt inputs').
Proof.
  intros Ha Ht Hc. unfold build_refined_prompt, build_generated_prompt.
  rewrite !build_common_guidance_eq, Ha, Ht, Hc.
  split; intros E; rewrite E; reflexivity.
Qed.

Lemma builders_ignore_the_other_modes_fields_witness :
  let inputs :=
    mkPromptInputs (lit "refine") (lit "Summarise this.") (lit "learn chess")
                   (lit "engineers") (lit "friendly") [] in
  let inputs' :=
    mkPromptInputs (lit "generate") (lit "Summarise this.") []
                   (lit "engineers") (lit "friendly") [] in
  build_refined_prompt inputs = build_refined_prompt inputs'.
Proof.
  cbv zeta.
  apply (builders_ignore_the_other_modes_fields
           (mkPromptInputs (lit "refine") (lit "Summarise this.")
                           (lit "learn chess") (lit "engineers")
                           (lit "friendly") [])
           (mkPromptInputs (lit "generate") (lit "Summarise this.") []
                           (lit "engineers") (lit "friendly") []));
    reflexivity.
Defined.

(** ** More on the configuration and the completion requester *)

(** X12: the credential is trimmed before use: a key with something else
    than white space in it makes a client for the trimmed key, and a key
    of white space only counts as no credential. *)
Theorem credential_is_trimmed_before_use
    (environ : gmap str str) (AsyncOpenAI : str -> Request -> Outcome)
    (raw_key : str) :
  environ !! lit "OPENAI_API_KEY" = Some raw_key ->
  (forallb isspace raw_key = false ->
   openai_client environ AsyncOpenAI = Some (AsyncOpenAI (strip raw_key)))
  /\ (forallb isspace raw_key = true ->
      openai_client environ AsyncOpenAI = None).
Proof.
  intros H. unfold openai_client, OPENAI_API_KEY, getenv, get.
  rewrite H. simpl. split; intros W.
  - destruct (strip raw_key) eqn:E; [|reflexivity].
    apply strip_empty_iff in E. congruence.
  - apply strip_empty_iff in W. rewrite W. reflexivity.
Qed.

Lemma credential_is_trimmed_before_use_witness :
  let environ : gmap str str :=
    {[ lit "OPENAI_API_KEY" := lit " sk-test" ++ nl ]} in
  let AsyncOpenAI := constant_service (Returns padded_reply) in
  environ !! lit "OPENAI_API_KEY" = Some (lit " sk-test" ++ nl)
  /\ forallb isspace (lit " sk-test" ++ nl) = false
  /\ openai_client environ AsyncOpenAI = Some (AsyncOpenAI (lit "sk-test")).
Proof.
  cbv zeta.
  split; [reflexivity|]. split; [reflexivity|].
  apply (credential_is_trimmed_before_use
           {[ lit "OPENAI_API_KEY" := lit " sk-test" ++ nl ]}
           (constant_service (Returns padded_reply))
           (lit " sk-test" ++ nl));
    reflexivity.
Defined.

(** X13: with no credential configured the client library is never
    called: the result is the same whatever the service would do. *)
Theorem unconfigured_requester_never_calls_the_service
    (environ : gmap str str) (AsyncOpenAI AsyncOpenAI' : str -> Request -> Outcome)
    (prompt : str) :
  OPENAI_API_KEY environ = [] ->
  run_openai environ AsyncOpenAI prompt = run_openai environ AsyncOpenAI' prompt.
Proof.
  intros H. unfold run_openai.
  rewrite (blank_key_no_client environ AsyncOpenAI H),
          (blank_key_no_client environ AsyncOpenAI' H).
  reflexivity.
Qed.

Lemma unconfigured_requester_never_calls_the_service_witness :
  OPENAI_API_KEY ∅ = []
  /\ run_openai ∅ (constant_service (Raises interruption)) (lit "Goal: learn chess")
     = run_openai ∅ (constant_service (Returns padded_reply)) (lit "Goal: learn chess").
Proof.
  split; [reflexivity|].
  apply (unconfigured_requester_never_calls_the_service
           ∅ (constant_service (Raises interruption))
           (constant_service (Returns padded_reply))
           (lit "Goal: learn chess")).
  reflexivity.
Defined.

(** X14: the request carries the prompt whole: its messages are the
    system message and one user message, a fixed directive followed by
    the prompt, and two prompts that give the same request are the same
    prompt. *)
Theorem request_carries_the_whole_prompt (environ : gmap str str) :
  (exists directive,
      forall prompt,
        messages (completion_request environ prompt)
        = [ {| role := lit "system"; param_content := SYSTEM_PROMPT |};
            {| role := lit "user"; param_content := directive ++ prompt |} ])
  /\ (forall prompt prompt',
        completion_request environ prompt = completion_request environ prompt' ->
        prompt = prompt').
Proof.
  split.
  - exists (lit "Produce the final prompt based on the instructions below. "
            ++ lit "Return ONLY the prompt text." ++ nl ++ nl).
    intros prompt. cbn [completion_request messages].
    rewrite <- !app_assoc. reflexivity.
  - intros prompt prompt' E.
    apply (f_equal messages) in E. cbn [completion_request messages] in E.
    injection E as E. exact E.
Qed.


Lemma refine_prompt_ok (inputs : PromptInputs) :
  exists prompt, refine_prompt inputs = Ok prompt.
Proof.
  unfold refine_prompt. destruct (eqb (mode inputs) (lit "refine")).
  - apply build_refined_prompt_ok.
  - apply build_generated_prompt_ok.
Qed.

(** ** More on the handler *)

Section Handler.

Variable environ : gmap str str.
Variable AsyncOpenAI : str -> Request -> Outcome.
Variable utcnow : str.



(** X17: with no credential configured the handler returns, for every
    submission, a page whose result starts with "OpenAI is not
    configured." and ends with the prompt the submission constructs. *)
Theorem unconfigured_handler_shows_the_constructed_prompt
    (raw_mode raw_original_prompt raw_goal raw_audience raw_tone
     raw_constraints : str) :
  OPENAI_API_KEY environ = [] ->
  exists ctx prompt between,
    refine environ AsyncOpenAI utcnow raw_mode raw_original_prompt raw_goal
           raw_audience raw_tone raw_constraints
    = Ok ctx
    /\ refine_prompt
         (refine_inputs raw_mode raw_original_prompt raw_goal raw_audience
                        raw_tone raw_constraints)
       = Ok prompt
    /\ ctx_result ctx = lit "OpenAI is not configured." ++ between ++ prompt.
Proof.
  intros H. unfold refine.
  destruct (refine_prompt_ok
              (refine_inputs raw_mode raw_original_prompt raw_goal raw_audience
                             raw_tone raw_constraints)) as [prompt P].
  rewrite P. cbn [mbind result_bind]. unfold run_openai.
  rewrite (blank_key_no_client environ AsyncOpenAI H).
  cbn [mbind result_bind].
  eexists. exists prompt.
  exists (lit " Set OPENAI_API_KEY to enable refinement." ++ nl ++ nl
          ++ lit "Constructed prompt:" ++ nl).
  split; [reflexivity|]. split; reflexivity.
Qed.

End Handler.



Lemma unconfigured_handler_shows_the_constructed_prompt_witness :
  OPENAI_API_KEY ∅ = []
  /\ exists ctx prompt between,
       refine ∅ (constant_service (Returns padded_reply))
              (lit "2024-01-01 00:00 UTC")
              (lit "refine") [] [] [] (lit "playful") []
       = Ok ctx
       /\ refine_prompt (refine_inputs (lit "refine") [] [] [] (lit "playful") [])
          = Ok prompt
       /\ ctx_result ctx = lit "OpenAI is not configured." ++ between ++ prompt.
Proof.
  split; [reflexivity|].
  apply (unconfigured_handler_shows_the_constructed_prompt
           ∅ (constant_service (Returns padded_reply))
           (lit "2024-01-01 00:00 UTC")
           (lit "refine") [] [] [] (lit "playful") []).
  reflexivity.
Defined.
